(** * zendesk.py: Zendesk helper functions, embedded and verified

    A shallow embedding of [src/zendesk.py]. The four helpers build a
    request, hand it to [requests], inspect the answer and return a Python
    value; they also print. The embedding keeps that shape:

    - Python values are the inductive [pyval] (what [response.json()] can
      produce, plus [str] and [None] results);
    - Python exceptions are the inductive [exn];
    - a function body is a computation in the monad [Py]: it threads the
      [world] (standard output and the log of HTTP requests issued) and
      ends in a returned value or a raised exception. The world survives a
      raise, as printed text does in Python;
    - the network is a [transport]: what [requests] answers to a request,
      either a [response] or a raised exception.

    Python [str] values are represented by their UTF-8 encoding, one
    [ascii] per byte, so [s.encode('utf-8')] is the list of those bytes. *)

From Stdlib Require Import ZArith NArith Lia Bool List String Ascii DecimalString.
From Stdlib.Strings Require Import Byte.
Import ListNotations.

Local Set Warnings "-register-all".
Local Open Scope string_scope.
Local Open Scope Z_scope.

(* ===================================================================== *)
(** ** Strings *)
(* ===================================================================== *)

(** The characters the source writes with an escape or inside quotes. *)
Definition dquote : string := String "034"%char EmptyString.
Definition newline : string := String "010"%char EmptyString.

(** [str(n)] for a Python [int]: decimal digits, a leading minus sign for
    negative numbers. *)
Definition str_int (n : Z) : string := NilZero.string_of_int (Z.to_int n).

(** Python's [sub in s] on strings. *)
Fixpoint str_contains (sub s : string) : bool :=
  String.prefix sub s ||
  match s with
  | EmptyString => false
  | String _ s' => str_contains sub s'
  end.

(** Number of bytes of the UTF-8 sequence introduced by a leading byte. *)
Definition utf8_width (c : ascii) : nat :=
  let n := N_of_ascii c in
  if (n <? 192)%N then 1%nat
  else if (n <? 224)%N then 2%nat
  else if (n <? 240)%N then 3%nat
  else 4%nat.

Fixpoint str_take_bytes (n : nat) (s : string) : string :=
  match n, s with
  | O, _ => EmptyString
  | S _, EmptyString => EmptyString
  | S n', String c s' => String c (str_take_bytes n' s')
  end.

(** [s[:1]] on a [str]: the first code point, or the empty string. *)
Definition str_first (s : string) : string :=
  match s with
  | EmptyString => EmptyString
  | String c _ => str_take_bytes (utf8_width c) s
  end.

(** The code points of a [str], in order, as [for c in s] yields them.
    [skip] counts the bytes still owed to the code point in progress. *)
Fixpoint str_chars_skip (skip : nat) (s : string) : list string :=
  match s with
  | EmptyString => []
  | String c s' =>
      match skip with
      | O => str_take_bytes (utf8_width c) s
               :: str_chars_skip (utf8_width c - 1) s'
      | S k => str_chars_skip k s'
      end
  end.

Definition str_chars (s : string) : list string := str_chars_skip 0 s.

(** [s.encode('utf-8')] and, for ASCII output, [bs.decode('utf-8')]. *)
Definition encode_utf8 (s : string) : list byte := list_byte_of_string s.
Definition decode_utf8 (bs : list byte) : string := string_of_list_byte bs.

(* ===================================================================== *)
(** ** [base64.b64encode] (RFC 4648, standard alphabet, padded) *)
(* ===================================================================== *)

Module Base64.

Definition alphabet : string :=
  "ABCDEFGHIJKLMNOPQRSTUVWXYZabcdefghijklmnopqrstuvwxyz0123456789+/".

Definition pad : byte := "="%byte.

(** The character of a 6-bit group. *)
Definition digit (n : N) : byte :=
  match String.get (N.to_nat n) alphabet with
  | Some c => byte_of_ascii c
  | None => pad
  end.

(** A 24-bit quantum: three input bytes, most significant first. *)
Definition quantum (a b c : byte) : N :=
  (Byte.to_N a * 65536 + Byte.to_N b * 256 + Byte.to_N c)%N.

(** The four 6-bit groups of a quantum, most significant first. *)
Definition sextets (q : N) : N * N * N * N :=
  (q / 262144, (q / 4096) mod 64, (q / 64) mod 64, q mod 64)%N.

Fixpoint b64encode (bs : list byte) : list byte :=
  match bs with
  | [] => []
  | [a] =>
      let '(s0, s1, _, _) := sextets (quantum a "000"%byte "000"%byte) in
      [digit s0; digit s1; pad; pad]
  | [a; b] =>
      let '(s0, s1, s2, _) := sextets (quantum a b "000"%byte) in
      [digit s0; digit s1; digit s2; pad]
  | a :: b :: c :: rest =>
      let '(s0, s1, s2, s3) := sextets (quantum a b c) in
      digit s0 :: digit s1 :: digit s2 :: digit s3 :: b64encode rest
  end.

(** The value of a base64 character, [None] outside the alphabet. *)
Fixpoint index_from (i : N) (cs : string) (c : byte) : option N :=
  match cs with
  | EmptyString => None
  | String d cs' =>
      if Byte.eqb (byte_of_ascii d) c then Some i
      else index_from (N.succ i) cs' c
  end.

Definition value (c : byte) : option N := index_from 0%N alphabet c.

Definition byte_of (n : N) : byte :=
  match Byte.of_N n with
  | Some b => b
  | None => "000"%byte
  end.

Definition unsextets (s0 s1 s2 s3 : N) : N :=
  (s0 * 262144 + s1 * 4096 + s2 * 64 + s3)%N.

(** The three bytes of a quantum. *)
Definition octets (q : N) : byte * byte * byte :=
  (byte_of (q / 65536), byte_of ((q / 256) mod 256), byte_of (q mod 256))%N.

(** Decoding of padded base64 text; [None] on malformed input. *)
Fixpoint b64decode (cs : list byte) : option (list byte) :=
  match cs with
  | [] => Some []
  | c0 :: c1 :: c2 :: c3 :: rest =>
      match value c0, value c1 with
      | Some s0, Some s1 =>
          match rest, value c2, value c3 with
          | [], None, None =>
              if Byte.eqb c2 pad && Byte.eqb c3 pad then
                let '(a, _, _) := octets (unsextets s0 s1 0 0) in Some [a]
              else None
          | [], Some s2, None =>
              if Byte.eqb c3 pad then
                let '(a, b, _) := octets (unsextets s0 s1 s2 0) in
                Some [a; b]
              else None
          | _, Some s2, Some s3 =>
              let '(a, b, c) := octets (unsextets s0 s1 s2 s3) in
              option_map (fun t => a :: b :: c :: t) (b64decode rest)
          | _, _, _ => None
          end
      | _, _ => None
      end
  | _ => None
  end.

(** Whether a byte may stand in padded base64 text. *)
Definition is_b64_char (c : byte) : bool :=
  match value c with
  | Some _ => true
  | None => Byte.eqb c pad
  end.

End Base64.

(* ===================================================================== *)
(** ** Python values and exceptions *)
(* ===================================================================== *)

(** The values the helpers handle: what [json.loads] builds, and the
    [str] and [None] results. A [dict] keeps its items in order; keys of
    a decoded JSON object are strings. A [float] is kept as mantissa and
    binary exponent. *)
Inductive pyval : Type :=
| PNone
| PBool (b : bool)
| PInt (n : Z)
| PFloat (m e : Z)
| PStr (s : string)
| PList (l : list pyval)
| PDict (d : list (string * pyval)).

(** Exceptions, by the class that decides how they are handled.
    [RequestException] stands for [requests.exceptions.RequestException]
    and its subclasses ([ConnectionError], [Timeout], [HTTPError], ...);
    it carries [str(e)]. [OtherError] is any exception of another class. *)
Inductive exn : Type :=
| NameError (name : string)
| KeyError (key : string)
| TypeError
| AttributeError
| RequestException (cls msg : string)
| OtherError (cls msg : string).

(** [isinstance(e, requests.exceptions.RequestException)]. *)
Definition is_request_exception (e : exn) : bool :=
  match e with
  | RequestException _ _ => true
  | _ => false
  end.

Fixpoint dict_lookup (k : string) (d : list (string * pyval)) : option pyval :=
  match d with
  | [] => None
  | (k', v) :: d' => if String.eqb k k' then Some v else dict_lookup k d'
  end.

(** [v[k]] for a string key [k]. *)
Definition subscript (v : pyval) (k : string) : exn + pyval :=
  match v with
  | PDict d =>
      match dict_lookup k d with
      | Some x => inr x
      | None => inl (KeyError k)
      end
  | _ => inl TypeError
  end.

(** [v[:1]]. A [dict] rejects a slice as a key (the [TypeError] of
    CPython up to 3.11). *)
Definition slice_to_1 (v : pyval) : exn + pyval :=
  match v with
  | PList l => inr (PList (firstn 1 l))
  | PStr s => inr (PStr (str_first s))
  | _ => inl TypeError
  end.

(** [v.get(k, default)]: only a [dict] has the method. *)
Definition dict_get (v : pyval) (k : string) (default : pyval) : exn + pyval :=
  match v with
  | PDict d =>
      match dict_lookup k d with
      | Some x => inr x
      | None => inr default
      end
  | _ => inl AttributeError
  end.

(** The keys of a [dict], each once, in the order of first insertion. *)
Fixpoint dict_keys (d : list (string * pyval)) : list string :=
  match d with
  | [] => []
  | (k, _) :: d' => k :: filter (fun k' => negb (String.eqb k k')) (dict_keys d')
  end.

(** The items [for t in v] runs through: the elements of a [list], the
    code points of a [str], the keys of a [dict]. Other values are not
    iterable. *)
Definition iterate (v : pyval) : exn + list pyval :=
  match v with
  | PList l => inr l
  | PStr s => inr (map PStr (str_chars s))
  | PDict d => inr (map PStr (dict_keys d))
  | _ => inl TypeError
  end.

(* ===================================================================== *)
(** ** The [requests] library, as far as the helpers use it *)
(* ===================================================================== *)

Module Requests.

Inductive method : Type := GET | POST.

(** The arguments of [requests.get] / [requests.post]. *)
Record request : Type := mkRequest {
  req_method : method;
  req_url : string;
  req_headers : list (string * string);
  req_params : list (string * string);
  req_auth : option (string * string);
  req_json : option pyval
}.

(** A [Response]: the attributes read by the helpers, and the outcome
    of calling [.json()] on it. A body that is not JSON makes the call
    raise; the class of that exception is the library's choice (a
    [RequestException] in recent versions, a [ValueError] before). *)
Record response : Type := mkResponse {
  status_code : Z;
  reason : string;
  url : string;
  text : string;
  json : exn + pyval
}.

(** What the library answers to a request. *)
Definition transport : Type := request -> exn + response.

(** [Response.raise_for_status]: the message of the [HTTPError] it
    raises, if any. *)
Definition http_error_msg (r : response) : option string :=
  if (400 <=? status_code r) && (status_code r <? 500) then
    Some (str_int (status_code r) ++ " Client Error: " ++ reason r
            ++ " for url: " ++ url r)
  else if (500 <=? status_code r) && (status_code r <? 600) then
    Some (str_int (status_code r) ++ " Server Error: " ++ reason r
            ++ " for url: " ++ url r)
  else None.

Definition raise_for_status (r : response) : exn + unit :=
  match http_error_msg r with
  | Some msg => inl (RequestException "HTTPError" msg)
  | None => inr tt
  end.

End Requests.

Import Requests.

(* ===================================================================== *)
(** ** Computations: state and exceptions *)
(* ===================================================================== *)

(** What a call leaves behind: the text written to standard output and
    the requests sent, oldest first. *)
Record world : Type := mkWorld {
  stdout : string;
  sent : list request
}.

Inductive outcome (A : Type) : Type :=
| Returns (a : A)
| Raises (e : exn).
Arguments Returns {A} a.
Arguments Raises {A} e.

Definition Py (A : Type) : Type := world -> outcome A * world.

Definition ret {A} (a : A) : Py A := fun w => (Returns a, w).

Definition raise {A} (e : exn) : Py A := fun w => (Raises e, w).

Definition bind {A B} (m : Py A) (k : A -> Py B) : Py B :=
  fun w =>
    match m w with
    | (Returns a, w') => k a w'
    | (Raises e, w') => (Raises e, w')
    end.

Declare Scope py_scope.
Delimit Scope py_scope with py.
Notation "x <- m ;; k" := (bind m (fun x => k))
  (at level 61, m at next level, right associativity) : py_scope.
Notation "m ;; k" := (bind m (fun _ => k))
  (at level 61, right associativity) : py_scope.
Local Open Scope py_scope.

(** A pure step that may raise. *)
Definition lift {A} (r : exn + A) : Py A :=
  match r with
  | inl e => raise e
  | inr a => ret a
  end.

(** [try: body except <class> as e: handler]. The handler is asked
    whether the exception is of its class; if not, the exception goes on. *)
Definition try_except {A} (body : Py A) (handler : exn -> option (Py A)) : Py A :=
  fun w =>
    match body w with
    | (Returns a, w') => (Returns a, w')
    | (Raises e, w') =>
        match handler e with
        | Some h => h w'
        | None => (Raises e, w')
        end
    end.

(** [for x in items: body]: the body runs on each item in turn; an
    exception ends the loop. *)
Fixpoint for_each {A} (items : list A) (body : A -> Py unit) : Py unit :=
  match items with
  | [] => ret tt
  | x :: rest => body x ;; for_each rest body
  end.

(** [print(s)] for a [str]. *)
Definition print (s : string) : Py unit :=
  fun w => (Returns tt, mkWorld (stdout w ++ s ++ newline) (sent w)).

(** Sending a request: it is logged, then the transport answers. *)
Definition send (net : transport) (rq : request) : Py response :=
  fun w =>
    let w' := mkWorld (stdout w) (sent w ++ [rq]) in
    match net rq with
    | inl e => (Raises e, w')
    | inr r => (Returns r, w')
    end.

(** [requests.get(url, headers=..., params=..., auth=...)]. *)
Definition requests_get (net : transport) (u : string)
    (headers params : list (string * string))
    (auth : option (string * string)) : Py response :=
  send net (mkRequest GET u headers params auth None).

(* ===================================================================== *)
(** ** Sample answers of the network *)
(* ===================================================================== *)

Module Samples.

Definition ticket (n : Z) : pyval :=
  PDict [("id", PInt n); ("status", PStr "open")].

Definition comment (s : string) : pyval := PDict [("body", PStr s)].

Definition ok (body : pyval) : response :=
  mkResponse 200 "OK" "https://acme.zendesk.com/api/v2/x" "{...}" (inr body).

Definition not_found : response :=
  mkResponse 404 "Not Found" "https://acme.zendesk.com/api/v2/x"
    "{error: RecordNotFound}"
    (inr (PDict [("error", PStr "RecordNotFound")])).

Definition open_results : pyval :=
  PDict [("results", PList [ticket 1; ticket 2; ticket 3]); ("count", PInt 3)].

Definition no_results : pyval :=
  PDict [("results", PList []); ("count", PInt 0)].

Definition thread : pyval :=
  PDict [("comments", PList [comment "first"; comment "second"])].

Definition no_thread : pyval := PDict [("count", PInt 0)].

Definition answers (r : response) : transport := fun _ => inr r.

Definition unreachable : transport :=
  fun _ => inl (RequestException "ConnectionError" "Max retries exceeded").

Definition w0 : world := mkWorld EmptyString [].

(** A 200 answer whose body is not JSON, as [.json()] fails on it in
    older and in recent versions of [requests]. *)
Definition garbled_old : response :=
  mkResponse 200 "OK" "https://acme.zendesk.com/api/v2/x" "<html>"
    (inl (OtherError "ValueError" "Expecting value")).

Definition garbled_new : response :=
  mkResponse 200 "OK" "https://acme.zendesk.com/api/v2/x" "<html>"
    (inl (RequestException "JSONDecodeError" "Expecting value")).

Definition created (body : pyval) : response :=
  mkResponse 201 "Created" "https://acme.zendesk.com/api/v2/x" "{...}"
    (inr body).

Definition broken : transport :=
  fun _ => inl (OtherError "KeyboardInterrupt" EmptyString).

(** A stand-in for [str]: exact on [None], [bool], [int] and [str]. *)
Definition show (v : pyval) : string :=
  match v with
  | PNone => "None"
  | PBool true => "True"
  | PBool false => "False"
  | PInt n => str_int n
  | PFloat _ _ => "<float>"
  | PStr s => s
  | PList _ => "[...]"
  | PDict _ => "{...}"
  end.

(** A help desk: the search (sent without [auth]) finds [results]; the
    comments of a ticket are answered by the URL asked for. *)
Definition desk (results : pyval) (comments : string -> exn + response)
  : transport :=
  fun rq =>
    match req_auth rq with
    | None => inr (ok (PDict [("results", results)]))
    | Some _ => comments (req_url rq)
    end.

(** Ticket 2 is gone; the other tickets have a thread of two comments. *)
Definition threads (u : string) : exn + response :=
  if String.eqb u "https://acme.zendesk.com/api/v2/tickets/2/comments.json"
  then inr not_found
  else inr (ok thread).

(** The comments of ticket 2 come as a bare list. *)
Definition bare_threads (u : string) : exn + response :=
  if String.eqb u "https://acme.zendesk.com/api/v2/tickets/2/comments.json"
  then inr (ok (PList [comment "first"]))
  else inr (ok thread).

Definition unnumbered : pyval := PDict [("status", PStr "open")].

End Samples.

(* ===================================================================== *)
(** ** zendesk.py *)
(* ===================================================================== *)

(** Names bound at module level when a helper runs: the imports, the
    [def]s and, under [__main__], the loop variables. *)
Definition module_globals : list string :=
  ["requests"; "base64"; "api_key"; "ZENDESK_EMAIL"; "zendesk_domain";
   "auth"; "read_open_zendesk_tickets"; "search_tickets";
   "reply_to_senders_ticket"; "get_zendesk_ticket_messages";
   "t"; "ticket_id"; "r"].

Definition bound_in (names : list string) (x : string) : bool :=
  existsb (String.eqb x) names.

Section Zendesk.

(** [settings.ZENDESK_TOKEN], [settings.ZENDESK_EMAIL] and
    [settings.ZENDESK_DOMAIN], under the names the module imports them. *)
Variables (api_key ZENDESK_EMAIL zendesk_domain : string).

(** The network behind [requests]. *)
Variable net : transport.

Definition auth : string :=
  let auth_string :=
    decode_utf8 (Base64.b64encode
                   (encode_utf8 (ZENDESK_EMAIL ++ "/token:" ++ api_key))) in
  "Basic " ++ auth_string.

(** [url] and [headers], which both search helpers build alike. *)
Definition search_url : string :=
  "https://" ++ zendesk_domain ++ ".zendesk.com/api/v2/search.json".

Definition search_headers : list (string * string) :=
  [("Authorization", auth); ("Content-Type", "application/json")].

Definition read_open_zendesk_tickets : Py pyval :=
  let url := search_url in
  let headers := search_headers in
  let query := "status:open type:ticket" in
  let params := [("query", query)] in
  response <- requests_get net url headers params None ;;
  if status_code response =? 200 then
    body <- lift (json response) ;;
    results <- lift (subscript body "results") ;;
    lift (slice_to_1 results)
  else
    print (text response) ;;
    ret (PStr ("Error fetching tickets: " ++ str_int (status_code response))).

(** The f-string of line 67. *)
Definition closed_query (keywords : string) : string :=
  "status:closed type:ticket description:" ++ dquote ++ keywords ++ dquote.

Definition search_tickets (keywords : string) : Py pyval :=
  let url := search_url in
  let headers := search_headers in
  let query := closed_query keywords in
  let params := [("query", query)] in
  response <- requests_get net url headers params None ;;
  if status_code response =? 200 then
    body <- lift (json response) ;;
    lift (subscript body "results")
  else
    ret (PStr ("Error searching tickets: " ++ str_int (status_code response))).

(** Reading a global name that is expected to hold a [Response]. None
    of the module's globals is one, and the builtins add no name the
    module reads: a bound name fails at the attribute access, an unbound
    one at the lookup. *)
Definition load_global (x : string) : Py response :=
  if bound_in module_globals x then raise AttributeError
  else raise (NameError x).

(** The call of [requests.post] is commented out (line 106), so
    [response] is assigned nowhere in the function and line 109 reads
    it as a global name. *)
Definition reply_to_senders_ticket (ticket_id message : string) : Py pyval :=
  let url := "https://api.senders.com/v1/tickets/" ++ ticket_id ++ "/reply" in
  let headers := [("Authorization", "Bearer " ++ api_key);
                  ("Content-Type", "application/json")] in
  let data := PDict [("message", PStr message)] in
  print message ;;
  response <- load_global "response" ;;
  if status_code response =? 200 then
    lift (json response)
  else
    ret (PStr ("Error replying to ticket: " ++ str_int (status_code response))).

(** The f-string of line 133. *)
Definition comments_url (ticket_id : Z) : string :=
  "https://" ++ zendesk_domain ++ ".zendesk.com/api/v2/tickets/"
    ++ str_int ticket_id ++ "/comments.json".

Definition get_zendesk_ticket_messages (ticket_id : Z) : Py pyval :=
  let url := comments_url ticket_id in
  let auth := (ZENDESK_EMAIL ++ "/token", api_key) in
  try_except
    (response <- requests_get net url [] [] (Some auth) ;;
     lift (raise_for_status response) ;;
     body <- lift (json response) ;;
     comments <- lift (dict_get body "comments" (PList [])) ;;
     ret comments)
    (fun e =>
       match e with
       | RequestException _ msg =>
           Some (print ("Error fetching ticket messages: " ++ msg) ;;
                 ret PNone)
       | _ => None
       end).

(** *** The script under [__main__] *)

(** Python's [str(v)], which [print] and the f-strings apply to a value;
    a builtin, taken as it is. *)
Variable py_str : pyval -> string.

(** The f-string of line 133 on the text of a ticket id. *)
Definition comments_url_of (id_text : string) : string :=
  "https://" ++ zendesk_domain ++ ".zendesk.com/api/v2/tickets/"
    ++ id_text ++ "/comments.json".

(** The body of [get_zendesk_ticket_messages] from line 134 on, once
    [url] is built. *)
Definition fetch_comments (url : string) : Py pyval :=
  let auth := (ZENDESK_EMAIL ++ "/token", api_key) in
  try_except
    (response <- requests_get net url [] [] (Some auth) ;;
     lift (raise_for_status response) ;;
     body <- lift (json response) ;;
     comments <- lift (dict_get body "comments" (PList [])) ;;
     ret comments)
    (fun e =>
       match e with
       | RequestException _ msg =>
           Some (print ("Error fetching ticket messages: " ++ msg) ;;
                 ret PNone)
       | _ => None
       end).

(** [get_zendesk_ticket_messages] as the script calls it: on the value
    found under ['id'], whatever its type. *)
Definition get_zendesk_ticket_messages_of (ticket_id : pyval) : Py pyval :=
  fetch_comments (comments_url_of (py_str ticket_id)).

(** The body of the loop, lines 151 to 154. *)
Definition report_ticket (t : pyval) : Py unit :=
  ticket_id <- lift (subscript t "id") ;;
  r <- get_zendesk_ticket_messages_of ticket_id ;;
  print (py_str ticket_id) ;;
  print (py_str r).

(** Lines 150 to 154. The block of lines 146 to 149 is a string, not
    code. *)
Definition main : Py unit :=
  tickets <- search_tickets "password" ;;
  items <- lift (iterate tickets) ;;
  for_each items report_ticket.

(** *** The requests the helpers hand to [requests] *)

Definition open_tickets_request : request :=
  mkRequest GET search_url search_headers
    [("query", "status:open type:ticket")] None None.

Definition closed_tickets_request (keywords : string) : request :=
  mkRequest GET search_url search_headers
    [("query", closed_query keywords)] None None.

Definition comments_request (ticket_id : Z) : request :=
  mkRequest GET (comments_url ticket_id) [] []
    (Some (ZENDESK_EMAIL ++ "/token", api_key)) None.

Definition comments_request_at (url : string) : request :=
  mkRequest GET url [] [] (Some (ZENDESK_EMAIL ++ "/token", api_key)) None.

(** What the [try] block of the comment fetch comes to, for a transport:
    the comments, or the first exception on the way. *)
Definition fetch_answer (url : string) : exn + pyval :=
  match net (comments_request_at url) with
  | inl e => inl e
  | inr r =>
      match raise_for_status r with
      | inl e => inl e
      | inr _ =>
          match json r with
          | inl e => inl e
          | inr body => dict_get body "comments" (PList [])
          end
      end
  end.

(** What the script prints for a ticket id: the error line of a fetch
    that gave up, then the id, then the comments or [None]. *)
Definition ticket_lines (ticket_id : pyval) : string :=
  match fetch_answer (comments_url_of (py_str ticket_id)) with
  | inr v => py_str ticket_id ++ newline ++ py_str v ++ newline
  | inl (RequestException _ msg) =>
      ("Error fetching ticket messages: " ++ msg) ++ newline
        ++ py_str ticket_id ++ newline ++ py_str PNone ++ newline
  | inl _ => EmptyString
  end.

(** [headers[k]] on the headers of a request. *)
Fixpoint header (k : string) (hs : list (string * string)) : option string :=
  match hs with
  | [] => None
  | (k', v) :: hs' => if String.eqb k k' then Some v else header k hs'
  end.


(* =================================================================== *)
(** ** Properties *)
(* =================================================================== *)

(** *** Strings *)

Lemma prefix_app (sub post : string) : String.prefix sub (sub ++ post) = true.
Proof.
  induction sub as [|a sub IH]; simpl; [destruct post; reflexivity|].
  destruct (ascii_dec a a) as [_|N]; [exact IH | now elim N].
Qed.

Lemma str_app_assoc (a b c : string) : (a ++ b) ++ c = a ++ b ++ c.
Proof. induction a as [|x a IH]; simpl; [reflexivity | now rewrite IH]. Qed.

Lemma str_contains_eq (sub s : string) :
  str_contains sub s =
    String.prefix sub s ||
    match s with
    | EmptyString => false
    | String _ s' => str_contains sub s'
    end.
Proof. destruct s; reflexivity. Qed.

Lemma str_contains_app (sub pre post : string) :
  str_contains sub (pre ++ sub ++ post) = true.
Proof.
  induction pre as [|c pre IH].
  - change (EmptyString ++ sub ++ post) with (sub ++ post).
    rewrite str_contains_eq, prefix_app. reflexivity.
  - change (String c pre ++ sub ++ post) with (String c (pre ++ sub ++ post)).
    rewrite str_contains_eq, IH. apply orb_true_r.
Qed.

Lemma str_contains_suffix (sub pre : string) :
  str_contains sub (pre ++ sub) = true.
Proof.
  replace sub with (sub ++ EmptyString) at 2.
  - apply str_contains_app.
  - induction sub; simpl; congruence.
Qed.

(** *** Base64: decoding undoes encoding *)

Import Base64.

Lemma value_digit (s : N) : (s < 64)%N -> value (digit s) = Some s.
Proof.
  intros H.
  assert (A : forallb (fun t => match value (digit t) with
                                | Some u => N.eqb t u
                                | None => false
                                end) (map N.of_nat (seq 0 64)) = true)
    by (vm_compute; reflexivity).
  rewrite forallb_forall in A.
  specialize (A s).
  destruct (value (digit s)) as [u|].
  - f_equal. symmetry. apply N.eqb_eq. apply A.
    apply in_map_iff. exists (N.to_nat s). split; [lia|]. apply in_seq. lia.
  - discriminate A.
    apply in_map_iff. exists (N.to_nat s). split; [lia|]. apply in_seq. lia.
Qed.

Lemma byte_of_to_N (b : byte) : byte_of (Byte.to_N b) = b.
Proof. unfold byte_of. rewrite Byte.of_to_N. reflexivity. Qed.

Lemma to_N_lt (b : byte) : (Byte.to_N b < 256)%N.
Proof. pose proof (Byte.to_N_bounded b). lia. Qed.

Ltac div_lia := zify; Z.to_euclidean_division_equations; lia.

Lemma sextets_bounds (a b c : byte) :
  let '(s0, s1, s2, s3) := sextets (quantum a b c) in
  (s0 < 64 /\ s1 < 64 /\ s2 < 64 /\ s3 < 64)%N.
Proof.
  unfold sextets, quantum.
  pose proof (to_N_lt a). pose proof (to_N_lt b). pose proof (to_N_lt c).
  repeat split; div_lia.
Qed.

Lemma unsextets_sextets (q : N) :
  let '(s0, s1, s2, s3) := sextets q in unsextets s0 s1 s2 s3 = q.
Proof. unfold sextets, unsextets. div_lia. Qed.

Lemma octets_quantum (a b c : byte) : octets (quantum a b c) = (a, b, c).
Proof.
  unfold octets, quantum.
  pose proof (to_N_lt a). pose proof (to_N_lt b). pose proof (to_N_lt c).
  replace ((to_N a * 65536 + to_N b * 256 + to_N c) / 65536)%N with (to_N a)
    by div_lia.
  replace (((to_N a * 65536 + to_N b * 256 + to_N c) / 256) mod 256)%N
    with (to_N b) by div_lia.
  replace ((to_N a * 65536 + to_N b * 256 + to_N c) mod 256)%N with (to_N c)
    by div_lia.
  rewrite !byte_of_to_N. reflexivity.
Qed.

Lemma unsextets_pad2 (a : byte) :
  let '(s0, s1, _, _) := sextets (quantum a "000" "000") in
  unsextets s0 s1 0 0 = quantum a "000" "000".
Proof.
  unfold sextets, unsextets, quantum. change (to_N "000") with 0%N.
  pose proof (to_N_lt a). div_lia.
Qed.

Lemma unsextets_pad1 (a b : byte) :
  let '(s0, s1, s2, _) := sextets (quantum a b "000") in
  unsextets s0 s1 s2 0 = quantum a b "000".
Proof.
  unfold sextets, unsextets, quantum. change (to_N "000") with 0%N.
  pose proof (to_N_lt a). pose proof (to_N_lt b). div_lia.
Qed.

Lemma list_ind3 {A} (P : list A -> Prop) :
  P [] -> (forall a, P [a]) -> (forall a b, P [a; b]) ->
  (forall a b c l, P l -> P (a :: b :: c :: l)) ->
  forall l, P l.
Proof.
  intros H0 H1 H2 H3.
  fix IH 1.
  intros [|a [|b [|c l]]];
    [exact H0 | apply H1 | apply H2 | apply H3; apply IH].
Qed.

Lemma b64decode_b64encode (bs : list byte) : b64decode (b64encode bs) = Some bs.
Proof.
  induction bs as [|a|a b|a b c rest IH] using list_ind3.
  - reflexivity.
  - cbn [b64encode].
    pose proof (sextets_bounds a "000" "000") as Hb.
    pose proof (unsextets_pad2 a) as Hu.
    destruct (sextets (quantum a "000" "000")) as [[[s0 s1] s2] s3].
    destruct Hb as (B0 & B1 & _ & _).
    cbn [b64decode]. rewrite !value_digit by assumption.
    change (value pad) with (@None N). cbn match.
    change (Byte.eqb pad pad) with true. cbn [andb].
    rewrite Hu, octets_quantum. reflexivity.
  - cbn [b64encode].
    pose proof (sextets_bounds a b "000") as Hb.
    pose proof (unsextets_pad1 a b) as Hu.
    destruct (sextets (quantum a b "000")) as [[[s0 s1] s2] s3].
    destruct Hb as (B0 & B1 & B2 & _).
    cbn [b64decode]. rewrite !value_digit by assumption.
    change (value pad) with (@None N). cbn match.
    change (Byte.eqb pad pad) with true. cbn match.
    rewrite Hu, octets_quantum. reflexivity.
  - cbn [b64encode].
    pose proof (sextets_bounds a b c) as Hb.
    pose proof (unsextets_sextets (quantum a b c)) as Hu.
    destruct (sextets (quantum a b c)) as [[[s0 s1] s2] s3].
    destruct Hb as (B0 & B1 & B2 & B3).
    cbn [b64decode]. rewrite !value_digit by assumption.
    rewrite Hu, octets_quantum, IH.
    destruct (b64encode rest); reflexivity.
Qed.

(** The test vectors of RFC 4648, section 10. *)
Example b64encode_rfc4648 :
  map (fun s => decode_utf8 (b64encode (encode_utf8 s)))
      ["f"; "fo"; "foo"; "foob"; "fooba"; "foobar"] =
    ["Zg=="; "Zm8="; "Zm9v"; "Zm9vYg=="; "Zm9vYmE="; "Zm9vYmFy"].
Proof. reflexivity. Qed.

Lemma utf8_roundtrip (bs : list byte) : encode_utf8 (decode_utf8 bs) = bs.
Proof. apply list_byte_of_string_of_list_byte. Qed.

(** *** What each helper does, by the answer of the network *)

Lemma read_open_error (r : response) (w : world) :
  net open_tickets_request = inr r ->
  status_code r <> 200 ->
  read_open_zendesk_tickets w =
    (Returns (PStr ("Error fetching tickets: " ++ str_int (status_code r))),
     mkWorld (stdout w ++ text r ++ newline)
             (sent w ++ [open_tickets_request])).
Proof.
  intros Hnet Hcode.
  unfold read_open_zendesk_tickets, requests_get, bind, send.
  fold open_tickets_request. rewrite Hnet.
  apply Z.eqb_neq in Hcode. rewrite Hcode. reflexivity.
Qed.

Lemma read_open_ok (r : response) (d : list (string * pyval))
      (l : list pyval) (w : world) :
  net open_tickets_request = inr r ->
  status_code r = 200 ->
  json r = inr (PDict d) ->
  dict_lookup "results" d = Some (PList l) ->
  read_open_zendesk_tickets w =
    (Returns (PList (firstn 1 l)),
     mkWorld (stdout w) (sent w ++ [open_tickets_request])).
Proof.
  intros Hnet Hcode Hjson Hres.
  unfold read_open_zendesk_tickets, requests_get, bind, send.
  fold open_tickets_request. rewrite Hnet, Hcode, Hjson. simpl.
  unfold bind, lift, subscript. rewrite Hres. reflexivity.
Qed.

Lemma search_error (keywords : string) (r : response) (w : world) :
  net (closed_tickets_request keywords) = inr r ->
  status_code r <> 200 ->
  search_tickets keywords w =
    (Returns (PStr ("Error searching tickets: " ++ str_int (status_code r))),
     mkWorld (stdout w) (sent w ++ [closed_tickets_request keywords])).
Proof.
  intros Hnet Hcode.
  unfold search_tickets, requests_get, bind, send.
  fold (closed_tickets_request keywords). rewrite Hnet.
  apply Z.eqb_neq in Hcode. rewrite Hcode. reflexivity.
Qed.

Lemma search_ok (keywords : string) (r : response)
      (d : list (string * pyval)) (v : pyval) (w : world) :
  net (closed_tickets_request keywords) = inr r ->
  status_code r = 200 ->
  json r = inr (PDict d) ->
  dict_lookup "results" d = Some v ->
  search_tickets keywords w =
    (Returns v, mkWorld (stdout w) (sent w ++ [closed_tickets_request keywords])).
Proof.
  intros Hnet Hcode Hjson Hres.
  unfold search_tickets, requests_get, bind, send.
  fold (closed_tickets_request keywords). rewrite Hnet, Hcode, Hjson. simpl.
  unfold lift, subscript. rewrite Hres. reflexivity.
Qed.

(** Every call of the two search helpers sends exactly one request,
    whatever the network answers. *)
Lemma read_open_sends (w : world) :
  sent (snd (read_open_zendesk_tickets w)) =
    (sent w ++ [open_tickets_request])%list.
Proof.
  unfold read_open_zendesk_tickets, requests_get, bind, send.
  fold open_tickets_request.
  destruct (net open_tickets_request) as [e|r]; [reflexivity|].
  destruct (status_code r =? 200); [|reflexivity].
  unfold lift. destruct (json r) as [e|body]; [reflexivity|]. simpl.
  destruct (subscript body "results") as [e|res]; [reflexivity|]. simpl.
  destruct (slice_to_1 res); reflexivity.
Qed.

Lemma search_sends (keywords : string) (w : world) :
  sent (snd (search_tickets keywords w)) =
    (sent w ++ [closed_tickets_request keywords])%list.
Proof.
  unfold search_tickets, requests_get, bind, send.
  fold (closed_tickets_request keywords).
  destruct (net (closed_tickets_request keywords)) as [e|r]; [reflexivity|].
  destruct (status_code r =? 200); [|reflexivity].
  unfold lift. destruct (json r) as [e|body]; [reflexivity|]. simpl.
  destruct (subscript body "results"); reflexivity.
Qed.

Lemma reply_run (ticket_id message : string) (w : world) :
  reply_to_senders_ticket ticket_id message w =
    (Raises (NameError "response"),
     mkWorld (stdout w ++ message ++ newline) (sent w)).
Proof. reflexivity. Qed.

Lemma comments_failure (ticket_id : Z) (cls msg : string) (w : world) :
  net (comments_request ticket_id) = inl (RequestException cls msg) ->
  get_zendesk_ticket_messages ticket_id w =
    (Returns PNone,
     mkWorld (stdout w ++ ("Error fetching ticket messages: " ++ msg) ++ newline)
             (sent w ++ [comments_request ticket_id])).
Proof.
  intros Hnet.
  unfold get_zendesk_ticket_messages, try_except, requests_get, bind, send.
  fold (comments_request ticket_id). rewrite Hnet. reflexivity.
Qed.

Lemma comments_http_error (ticket_id : Z) (r : response) (msg : string)
      (w : world) :
  net (comments_request ticket_id) = inr r ->
  http_error_msg r = Some msg ->
  get_zendesk_ticket_messages ticket_id w =
    (Returns PNone,
     mkWorld (stdout w ++ ("Error fetching ticket messages: " ++ msg) ++ newline)
             (sent w ++ [comments_request ticket_id])).
Proof.
  intros Hnet Hmsg.
  unfold get_zendesk_ticket_messages, try_except, requests_get, bind, send.
  fold (comments_request ticket_id). rewrite Hnet.
  unfold raise_for_status. rewrite Hmsg. reflexivity.
Qed.

(** [raise_for_status] raises exactly on the 4xx and 5xx statuses, and
    what it raises is an [HTTPError]. *)
Lemma raise_for_status_raises (r : response) :
  (exists e, raise_for_status r = inl e) <-> 400 <= status_code r < 600.
Proof.
  unfold raise_for_status, http_error_msg.
  destruct (Z.leb_spec 400 (status_code r));
    destruct (Z.ltb_spec (status_code r) 500);
    destruct (Z.leb_spec 500 (status_code r));
    destruct (Z.ltb_spec (status_code r) 600); simpl;
    split; intros H'; try lia; try (destruct H'; discriminate); eauto.
Qed.

Lemma raise_for_status_inl (r : response) (e : exn) :
  raise_for_status r = inl e ->
  exists msg, http_error_msg r = Some msg /\ e = RequestException "HTTPError" msg.
Proof.
  unfold raise_for_status.
  destruct (http_error_msg r) as [msg|]; [|discriminate].
  intros [= <-]. eauto.
Qed.

Lemma comments_ok (ticket_id : Z) (r : response)
      (d : list (string * pyval)) (w : world) :
  net (comments_request ticket_id) = inr r ->
  status_code r = 200 ->
  json r = inr (PDict d) ->
  get_zendesk_ticket_messages ticket_id w =
    (Returns match dict_lookup "comments" d with
             | Some v => v
             | None => PList []
             end,
     mkWorld (stdout w) (sent w ++ [comments_request ticket_id])).
Proof.
  intros Hnet Hcode Hjson.
  unfold get_zendesk_ticket_messages, try_except, requests_get, bind, send.
  fold (comments_request ticket_id). rewrite Hnet.
  unfold raise_for_status, http_error_msg. rewrite Hcode, Hjson. simpl.
  destruct (dict_lookup "comments" d); reflexivity.
Qed.

(* ===================================================================== *)
(** ** The claims of the specification *)
(* ===================================================================== *)

(** C1. When the transport answers with a status code other than 200,
    [read_open_zendesk_tickets] and [search_tickets] return a string that
    contains the decimal status code. The string is the fixed message
    followed by the code, whatever the body of the response holds: no
    ticket data is returned. *)
Theorem error_status_is_reported :
  (forall (r : response) (w : world),
      net open_tickets_request = inr r ->
      status_code r <> 200 ->
      fst (read_open_zendesk_tickets w) =
        Returns (PStr ("Error fetching tickets: " ++ str_int (status_code r)))
      /\ str_contains (str_int (status_code r))
           ("Error fetching tickets: " ++ str_int (status_code r)) = true)
  /\
  (forall (keywords : string) (r : response) (w : world),
      net (closed_tickets_request keywords) = inr r ->
      status_code r <> 200 ->
      fst (search_tickets keywords w) =
        Returns (PStr ("Error searching tickets: " ++ str_int (status_code r)))
      /\ str_contains (str_int (status_code r))
           ("Error searching tickets: " ++ str_int (status_code r)) = true).
Proof.
  split.
  - intros r w Hnet Hcode.
    rewrite (read_open_error r w Hnet Hcode). split; [reflexivity|].
    apply str_contains_suffix.
  - intros keywords r w Hnet Hcode.
    rewrite (search_error keywords r w Hnet Hcode). split; [reflexivity|].
    apply str_contains_suffix.
Qed.

(** C2. On a 200 response whose JSON body has a list under ['results'],
    [read_open_zendesk_tickets] returns a list of at most one record: the
    slice [[:1]] of the results, which is the first element alone as soon
    as there is one, however many follow. *)
Theorem open_tickets_at_most_one
    (r : response) (d : list (string * pyval)) (l : list pyval) (w : world) :
  net open_tickets_request = inr r ->
  status_code r = 200 ->
  json r = inr (PDict d) ->
  dict_lookup "results" d = Some (PList l) ->
  fst (read_open_zendesk_tickets w) = Returns (PList (firstn 1 l))
  /\ (List.length (firstn 1 l) <= 1)%nat
  /\ (forall (x : pyval) (rest : list pyval),
        l = x :: rest -> firstn 1 l = [x]).
Proof.
  intros Hnet Hcode Hjson Hres.
  rewrite (read_open_ok r d l w Hnet Hcode Hjson Hres).
  split; [reflexivity|]. split.
  - apply firstn_le_length.
  - intros x rest ->. reflexivity.
Qed.

(** C3. When fetching the comments fails at the transport level, that is
    [requests.get] raises a [RequestException] (a network error) or
    [raise_for_status] raises on the status of the answer (it does on 4xx
    and 5xx, see [raise_for_status_raises]), then
    [get_zendesk_ticket_messages] catches the exception, prints it, that
    is the text [str(e)] of the exception caught, after
    ["Error fetching ticket messages: "], and returns [None]. It returns;
    it does not raise. What [raise_for_status] raises is an [HTTPError]
    whose text is the message built from the status, the reason and the
    URL of the answer. *)
Theorem comment_fetch_failure_is_caught (ticket_id : Z) (w : world) :
  (forall cls msg : string,
      net (comments_request ticket_id) = inl (RequestException cls msg) ->
      get_zendesk_ticket_messages ticket_id w =
        (Returns PNone,
         mkWorld (stdout w ++ ("Error fetching ticket messages: " ++ msg) ++ newline)
                 (sent w ++ [comments_request ticket_id])))
  /\ (forall (r : response) (e : exn),
        net (comments_request ticket_id) = inr r ->
        raise_for_status r = inl e ->
        exists msg : string,
          e = RequestException "HTTPError" msg
          /\ http_error_msg r = Some msg
          /\ get_zendesk_ticket_messages ticket_id w =
               (Returns PNone,
                mkWorld (stdout w ++ ("Error fetching ticket messages: " ++ msg)
                           ++ newline)
                        (sent w ++ [comments_request ticket_id]))).
Proof.
  split.
  - intros cls msg Hnet. exact (comments_failure ticket_id cls msg w Hnet).
  - intros r e Hnet Hraise.
    destruct (raise_for_status_inl r e Hraise) as (msg & Hmsg & He).
    exists msg. split; [exact He | split; [exact Hmsg |]].
    exact (comments_http_error ticket_id r msg w Hnet Hmsg).
Qed.

(** C4. For every ticket id and message, [reply_to_senders_ticket] ends
    in [NameError] on the name [response], which no global binds, and the
    log of HTTP requests is as it was before the call: the failure comes
    before any HTTP effect. *)
Theorem reply_fails_with_name_error (ticket_id message : string) (w : world) :
  fst (reply_to_senders_ticket ticket_id message w) = Raises (NameError "response")
  /\ sent (snd (reply_to_senders_ticket ticket_id message w)) = sent w
  /\ bound_in module_globals "response" = false.
Proof. rewrite reply_run. repeat split. Qed.

(** C5. On a 200 response whose JSON body is an object,
    [get_zendesk_ticket_messages] returns the empty list when the object
    has no ['comments'] key, and otherwise the value under that key as it
    is: a list comes back whole and in the order received. *)
Theorem comments_default_and_order
    (ticket_id : Z) (r : response) (d : list (string * pyval)) (w : world) :
  net (comments_request ticket_id) = inr r ->
  status_code r = 200 ->
  json r = inr (PDict d) ->
  (dict_lookup "comments" d = None ->
   fst (get_zendesk_ticket_messages ticket_id w) = Returns (PList []))
  /\ (forall l : list pyval,
        dict_lookup "comments" d = Some (PList l) ->
        fst (get_zendesk_ticket_messages ticket_id w) = Returns (PList l)).
Proof.
  intros Hnet Hcode Hjson.
  rewrite (comments_ok ticket_id r d w Hnet Hcode Hjson).
  split.
  - intros ->. reflexivity.
  - intros l ->. reflexivity.
Qed.

(** C6. On a 200 response whose JSON body has a list under ['results'],
    [search_tickets] returns that list, whole. *)
Theorem search_returns_full_results
    (keywords : string) (r : response) (d : list (string * pyval))
    (l : list pyval) (w : world) :
  net (closed_tickets_request keywords) = inr r ->
  status_code r = 200 ->
  json r = inr (PDict d) ->
  dict_lookup "results" d = Some (PList l) ->
  fst (search_tickets keywords w) = Returns (PList l).
Proof.
  intros Hnet Hcode Hjson Hres.
  rewrite (search_ok keywords r d (PList l) w Hnet Hcode Hjson Hres).
  reflexivity.
Qed.

(** C7. For every keyword, the one request [search_tickets] sends has as
    its only parameter [query], whose value is
    [status:closed type:ticket description:] followed by the keyword
    between double quotes. The keyword is copied as it is; one that holds
    a double quote closes the quoted phrase, and what follows the quote
    stands in the query as syntax of its own. *)
Theorem closed_query_embeds_keyword_verbatim (keywords : string) (w : world) :
  (exists rq,
      sent (snd (search_tickets keywords w)) = (sent w ++ [rq])%list
      /\ req_params rq =
           [("query",
             "status:closed type:ticket description:"
               ++ dquote ++ keywords ++ dquote)])
  /\ str_contains keywords (closed_query keywords) = true
  /\ (forall phrase injected : string,
        closed_query (phrase ++ dquote ++ injected) =
          ("status:closed type:ticket description:" ++ dquote ++ phrase ++ dquote)
            ++ injected ++ dquote).
Proof.
  split; [|split].
  - exists (closed_tickets_request keywords). split.
    + apply search_sends.
    + reflexivity.
  - unfold closed_query.
    change ("status:closed type:ticket description:" ++ dquote ++ keywords ++ dquote)
      with (("status:closed type:ticket description:" ++ dquote)
              ++ keywords ++ dquote).
    apply str_contains_app.
  - intros phrase injected. unfold closed_query.
    rewrite !str_app_assoc. reflexivity.
Qed.

(** C8. The one request [read_open_zendesk_tickets] sends, and the one
    [search_tickets] sends, carry under [Authorization] the value of
    [auth()]: ["Basic "] followed by the base64 text of
    ["{email}/token:{token}"]. Decoding that text gives the credential
    back. *)
Theorem search_authorization_is_basic (keywords : string) (w : world) :
  (exists rq,
      sent (snd (read_open_zendesk_tickets w)) = (sent w ++ [rq])%list
      /\ header "Authorization" (req_headers rq) = Some auth)
  /\ (exists rq,
        sent (snd (search_tickets keywords w)) = (sent w ++ [rq])%list
        /\ header "Authorization" (req_headers rq) = Some auth)
  /\ auth =
       "Basic " ++ decode_utf8
                    (Base64.b64encode
                       (encode_utf8 (ZENDESK_EMAIL ++ "/token:" ++ api_key)))
  /\ Base64.b64decode
       (encode_utf8
          (decode_utf8
             (Base64.b64encode
                (encode_utf8 (ZENDESK_EMAIL ++ "/token:" ++ api_key))))) =
       Some (encode_utf8 (ZENDESK_EMAIL ++ "/token:" ++ api_key)).
Proof.
  repeat split.
  - exists open_tickets_request. split; [apply read_open_sends | reflexivity].
  - exists (closed_tickets_request keywords).
    split; [apply search_sends | reflexivity].
  - rewrite utf8_roundtrip. apply b64decode_b64encode.
Qed.

(** C9. For every ticket id and message, [reply_to_senders_ticket] sends
    no HTTP request; all it leaves behind is the message, printed on
    standard output. *)
Theorem reply_only_prints (ticket_id message : string) (w : world) :
  snd (reply_to_senders_ticket ticket_id message w) =
    mkWorld (stdout w ++ message ++ newline) (sent w).
Proof. rewrite reply_run. reflexivity. Qed.

(** C10. On a 200 response whose ['results'] list is empty,
    [read_open_zendesk_tickets] returns the empty list: a returned list,
    not an error string and not a raised exception. *)
Theorem open_tickets_empty_results
    (r : response) (d : list (string * pyval)) (w : world) :
  net open_tickets_request = inr r ->
  status_code r = 200 ->
  json r = inr (PDict d) ->
  dict_lookup "results" d = Some (PList []) ->
  fst (read_open_zendesk_tickets w) = Returns (PList []).
Proof.
  intros Hnet Hcode Hjson Hres.
  rewrite (read_open_ok r d [] w Hnet Hcode Hjson Hres). reflexivity.
Qed.

(* ===================================================================== *)
(** ** Further properties of the helpers *)
(* ===================================================================== *)

(** *** The search helpers outside their two documented outcomes *)

Lemma read_open_run (w : world) :
  read_open_zendesk_tickets w =
    let w1 := mkWorld (stdout w) (sent w ++ [open_tickets_request]) in
    match net open_tickets_request with
    | inl e => (Raises e, w1)
    | inr r =>
        if status_code r =? 200 then
          match json r with
          | inl e => (Raises e, w1)
          | inr body =>
              match subscript body "results" with
              | inl e => (Raises e, w1)
              | inr results =>
                  match slice_to_1 results with
                  | inl e => (Raises e, w1)
                  | inr v => (Returns v, w1)
                  end
              end
          end
        else
          (Returns (PStr ("Error fetching tickets: " ++ str_int (status_code r))),
           mkWorld (stdout w ++ text r ++ newline) (sent w1))
    end.
Proof.
  unfold read_open_zendesk_tickets, requests_get, bind, send.
  fold open_tickets_request.
  destruct (net open_tickets_request) as [e|r]; [reflexivity|].
  destruct (status_code r =? 200); [|reflexivity].
  unfold lift. destruct (json r) as [e|body]; [reflexivity|]. simpl.
  destruct (subscript body "results") as [e|res]; [reflexivity|]. simpl.
  destruct (slice_to_1 res); reflexivity.
Qed.

Lemma search_run (keywords : string) (w : world) :
  search_tickets keywords w =
    let w1 := mkWorld (stdout w)
                (sent w ++ [closed_tickets_request keywords]) in
    match net (closed_tickets_request keywords) with
    | inl e => (Raises e, w1)
    | inr r =>
        if status_code r =? 200 then
          match json r with
          | inl e => (Raises e, w1)
          | inr body =>
              match subscript body "results" with
              | inl e => (Raises e, w1)
              | inr results => (Returns results, w1)
              end
          end
        else
          (Returns (PStr ("Error searching tickets: " ++ str_int (status_code r))),
           w1)
    end.
Proof.
  unfold search_tickets, requests_get, bind, send.
  fold (closed_tickets_request keywords).
  destruct (net (closed_tickets_request keywords)) as [e|r]; [reflexivity|].
  destruct (status_code r =? 200); [|reflexivity].
  unfold lift. destruct (json r) as [e|body]; [reflexivity|]. simpl.
  destruct (subscript body "results"); reflexivity.
Qed.

(** X1. Neither search helper catches what [requests.get] raises: a
    network error leaves [read_open_zendesk_tickets] and [search_tickets]
    as the exception it is, after the one request and with nothing
    printed. *)
Theorem search_helpers_propagate_network_errors (e : exn) :
  (forall w : world,
      net open_tickets_request = inl e ->
      read_open_zendesk_tickets w =
        (Raises e, mkWorld (stdout w) (sent w ++ [open_tickets_request])))
  /\ (forall (keywords : string) (w : world),
        net (closed_tickets_request keywords) = inl e ->
        search_tickets keywords w =
          (Raises e,
           mkWorld (stdout w) (sent w ++ [closed_tickets_request keywords]))).
Proof.
  split.
  - intros w Hnet. rewrite read_open_run, Hnet. reflexivity.
  - intros keywords w Hnet. rewrite search_run, Hnet. reflexivity.
Qed.

(** X2. On a 200 answer whose JSON object has no ['results'] key, both
    search helpers raise [KeyError] on that key; they do not return an
    error string or an empty list. *)
Theorem search_helpers_need_results_key
    (r : response) (d : list (string * pyval)) :
  status_code r = 200 ->
  json r = inr (PDict d) ->
  dict_lookup "results" d = None ->
  (forall w : world,
      net open_tickets_request = inr r ->
      fst (read_open_zendesk_tickets w) = Raises (KeyError "results"))
  /\ (forall (keywords : string) (w : world),
        net (closed_tickets_request keywords) = inr r ->
        fst (search_tickets keywords w) = Raises (KeyError "results")).
Proof.
  intros Hcode Hjson Hmiss.
  assert (Hsub : subscript (PDict d) "results" = inl (KeyError "results"))
    by (unfold subscript; rewrite Hmiss; reflexivity).
  split.
  - intros w Hnet. rewrite read_open_run, Hnet, Hcode, Hjson, Hsub. reflexivity.
  - intros keywords w Hnet.
    rewrite search_run, Hnet, Hcode, Hjson, Hsub. reflexivity.
Qed.

(** X3. On a 200 answer whose body is not JSON, so that [.json()]
    raises, both search helpers raise that exception. *)
Theorem search_helpers_propagate_json_errors (r : response) (e : exn) :
  status_code r = 200 ->
  json r = inl e ->
  (forall w : world,
      net open_tickets_request = inr r ->
      fst (read_open_zendesk_tickets w) = Raises e)
  /\ (forall (keywords : string) (w : world),
        net (closed_tickets_request keywords) = inr r ->
        fst (search_tickets keywords w) = Raises e).
Proof.
  intros Hcode Hjson. split.
  - intros w Hnet. rewrite read_open_run, Hnet, Hcode, Hjson. reflexivity.
  - intros keywords w Hnet. rewrite search_run, Hnet, Hcode, Hjson. reflexivity.
Qed.

(** X4. [search_tickets] never prints: whatever the network does and
    however the call ends, standard output is as it was. *)
Theorem search_tickets_never_prints (keywords : string) (w : world) :
  stdout (snd (search_tickets keywords w)) = stdout w.
Proof.
  rewrite search_run. cbv zeta.
  destruct (net (closed_tickets_request keywords)) as [e|r]; [reflexivity|].
  destruct (status_code r =? 200); [|reflexivity].
  destruct (json r) as [e|body]; [reflexivity|].
  destruct (subscript body "results"); reflexivity.
Qed.

(** X5. [read_open_zendesk_tickets] prints in one case only: when an
    answer with a status other than 200 arrives, it prints the raw body
    of the answer and a newline. On a 200 answer and on a network error
    it prints nothing. *)
Theorem read_open_prints_body_on_error_only (w : world) :
  stdout (snd (read_open_zendesk_tickets w)) =
    match net open_tickets_request with
    | inr r =>
        if status_code r =? 200 then stdout w
        else stdout w ++ text r ++ newline
    | inl _ => stdout w
    end.
Proof.
  rewrite read_open_run. cbv zeta.
  destruct (net open_tickets_request) as [e|r]; [reflexivity|].
  destruct (status_code r =? 200); [|reflexivity].
  destruct (json r) as [e|body]; [reflexivity|].
  destruct (subscript body "results") as [e|res]; [reflexivity|].
  destruct (slice_to_1 res); reflexivity.
Qed.

(** *** The comment fetch *)

Lemma str_app_nil_r (s : string) : s ++ EmptyString = s.
Proof. induction s as [|c s IH]; simpl; [reflexivity | now rewrite IH]. Qed.

Lemma fetch_comments_run (u : string) (w : world) :
  fetch_comments u w =
    let w1 := mkWorld (stdout w) (sent w ++ [comments_request_at u]) in
    match fetch_answer u with
    | inr v => (Returns v, w1)
    | inl (RequestException _ msg) =>
        (Returns PNone,
         mkWorld (stdout w ++ ("Error fetching ticket messages: " ++ msg) ++ newline)
                 (sent w1))
    | inl e => (Raises e, w1)
    end.
Proof.
  unfold fetch_comments, fetch_answer, try_except, requests_get, bind, send.
  fold (comments_request_at u).
  destruct (net (comments_request_at u)) as [e|r].
  - destruct e; reflexivity.
  - simpl. unfold lift at 1.
    destruct (raise_for_status r) as [e|[]].
    + destruct e; reflexivity.
    + simpl. destruct (json r) as [e|body].
      * destruct e; reflexivity.
      * simpl. destruct (dict_get body "comments" (PList [])) as [e|v].
        -- destruct e; reflexivity.
        -- reflexivity.
Qed.

Lemma messages_as_fetch (ticket_id : Z) :
  get_zendesk_ticket_messages ticket_id = fetch_comments (comments_url ticket_id).
Proof. reflexivity. Qed.

Lemma messages_run (ticket_id : Z) (w : world) :
  get_zendesk_ticket_messages ticket_id w =
    let w1 := mkWorld (stdout w) (sent w ++ [comments_request ticket_id]) in
    match fetch_answer (comments_url ticket_id) with
    | inr v => (Returns v, w1)
    | inl (RequestException _ msg) =>
        (Returns PNone,
         mkWorld (stdout w ++ ("Error fetching ticket messages: " ++ msg) ++ newline)
                 (sent w1))
    | inl e => (Raises e, w1)
    end.
Proof. rewrite messages_as_fetch. apply fetch_comments_run. Qed.

(** X6. No helper retries or sends a second request: whatever the
    network answers and however the call ends, each of
    [read_open_zendesk_tickets], [search_tickets] and
    [get_zendesk_ticket_messages] adds exactly one request to those sent.
    The comment fetch sends it with the pair (email + ["/token"], token)
    as [auth] and without headers of its own. *)
Theorem one_request_per_call (keywords : string) (ticket_id : Z) (w : world) :
  sent (snd (read_open_zendesk_tickets w)) =
    (sent w ++ [open_tickets_request])%list
  /\ sent (snd (search_tickets keywords w)) =
       (sent w ++ [closed_tickets_request keywords])%list
  /\ (exists rq,
        sent (snd (get_zendesk_ticket_messages ticket_id w)) =
          (sent w ++ [rq])%list
        /\ req_url rq = comments_url ticket_id
        /\ req_auth rq = Some (ZENDESK_EMAIL ++ "/token", api_key)
        /\ req_headers rq = []).
Proof.
  split; [apply read_open_sends | split; [apply search_sends |]].
  exists (comments_request ticket_id). split; [|repeat split].
  rewrite messages_run. cbv zeta.
  destruct (fetch_answer (comments_url ticket_id)) as [e|v]; [|reflexivity].
  destruct e; reflexivity.
Qed.

(** X7. [get_zendesk_ticket_messages] never ends in a
    [RequestException]: whatever the network does, be it in
    [requests.get], in [raise_for_status] or in [.json()], no exception of
    that class reaches the caller. *)
Theorem messages_never_raise_request_exception
    (ticket_id : Z) (w : world) (e : exn) :
  fst (get_zendesk_ticket_messages ticket_id w) = Raises e ->
  is_request_exception e = false.
Proof.
  rewrite messages_run. cbv zeta.
  destruct (fetch_answer (comments_url ticket_id)) as [e'|v];
    [|discriminate].
  destruct e'; simpl; intros [= <-]; reflexivity.
Qed.

(** X8. An exception of another class is not caught by the comment
    fetch: raised by [requests.get], or by [.json()] on an answer that
    [raise_for_status] lets through, it leaves
    [get_zendesk_ticket_messages] as it is, with nothing printed. *)
Theorem messages_propagate_other_exceptions
    (ticket_id : Z) (e : exn) (w : world) :
  is_request_exception e = false ->
  net (comments_request ticket_id) = inl e
  \/ (exists r,
        net (comments_request ticket_id) = inr r
        /\ raise_for_status r = inr tt
        /\ json r = inl e) ->
  get_zendesk_ticket_messages ticket_id w =
    (Raises e, mkWorld (stdout w) (sent w ++ [comments_request ticket_id])).
Proof.
  intros Hcls Hfail.
  assert (Hans : fetch_answer (comments_url ticket_id) = inl e).
  { unfold fetch_answer.
    change (comments_request_at (comments_url ticket_id))
      with (comments_request ticket_id).
    destruct Hfail as [Hnet | (r & Hnet & Hst & Hjson)].
    - rewrite Hnet. reflexivity.
    - rewrite Hnet, Hst, Hjson. reflexivity. }
  rewrite messages_run, Hans.
  destruct e; try reflexivity. discriminate Hcls.
Qed.

(** X9. When [.json()] itself raises a [RequestException] (the decoding
    error of recent [requests] versions is one) on an answer that
    [raise_for_status] lets through, [get_zendesk_ticket_messages] prints
    the error and returns [None], as for a network failure. *)
Theorem messages_swallow_json_request_exception
    (ticket_id : Z) (r : response) (cls msg : string) (w : world) :
  net (comments_request ticket_id) = inr r ->
  raise_for_status r = inr tt ->
  json r = inl (RequestException cls msg) ->
  get_zendesk_ticket_messages ticket_id w =
    (Returns PNone,
     mkWorld (stdout w ++ ("Error fetching ticket messages: " ++ msg) ++ newline)
             (sent w ++ [comments_request ticket_id])).
Proof.
  intros Hnet Hst Hjson.
  assert (Hans : fetch_answer (comments_url ticket_id) =
                 inl (RequestException cls msg)).
  { unfold fetch_answer.
    change (comments_request_at (comments_url ticket_id))
      with (comments_request ticket_id).
    rewrite Hnet, Hst, Hjson. reflexivity. }
  rewrite messages_run, Hans. reflexivity.
Qed.

(** X10. When the JSON body of an answer that [raise_for_status] lets
    through is not an object (a list, a string, a number, [null]),
    [get_zendesk_ticket_messages] raises [AttributeError]: the value has
    no [get]. *)
Theorem messages_need_object_body
    (ticket_id : Z) (r : response) (body : pyval) (w : world) :
  net (comments_request ticket_id) = inr r ->
  raise_for_status r = inr tt ->
  json r = inr body ->
  (forall d, body <> PDict d) ->
  get_zendesk_ticket_messages ticket_id w =
    (Raises AttributeError,
     mkWorld (stdout w) (sent w ++ [comments_request ticket_id])).
Proof.
  intros Hnet Hst Hjson Hobj.
  assert (Hans : fetch_answer (comments_url ticket_id) = inl AttributeError).
  { unfold fetch_answer.
    change (comments_request_at (comments_url ticket_id))
      with (comments_request ticket_id).
    rewrite Hnet, Hst, Hjson.
    destruct body; try reflexivity. now elim (Hobj d). }
  rewrite messages_run, Hans. reflexivity.
Qed.

(** X11. The comment fetch takes every status outside 400..599 for a
    success, not 200 alone: on such an answer with a JSON object it
    returns the value under ['comments'], or the empty list without the
    key, and prints nothing. *)
Theorem messages_accept_any_status_below_400
    (ticket_id : Z) (r : response) (d : list (string * pyval)) (w : world) :
  net (comments_request ticket_id) = inr r ->
  ~ (400 <= status_code r < 600) ->
  json r = inr (PDict d) ->
  get_zendesk_ticket_messages ticket_id w =
    (Returns match dict_lookup "comments" d with
             | Some v => v
             | None => PList []
             end,
     mkWorld (stdout w) (sent w ++ [comments_request ticket_id])).
Proof.
  intros Hnet Hcode Hjson.
  assert (Hst : raise_for_status r = inr tt).
  { destruct (raise_for_status r) as [e|[]] eqn:E; [|reflexivity].
    elim Hcode. apply raise_for_status_raises. eauto. }
  assert (Hans : fetch_answer (comments_url ticket_id) =
                 inr match dict_lookup "comments" d with
                     | Some v => v
                     | None => PList []
                     end).
  { unfold fetch_answer.
    change (comments_request_at (comments_url ticket_id))
      with (comments_request ticket_id).
    rewrite Hnet, Hst, Hjson. simpl.
    destruct (dict_lookup "comments" d); reflexivity. }
  rewrite messages_run, Hans. reflexivity.
Qed.

(** X12. [get_zendesk_ticket_messages] prints only when it gives up: if
    a call has changed standard output, it has returned [None]. *)
Theorem messages_print_only_with_none (ticket_id : Z) (w : world) :
  stdout (snd (get_zendesk_ticket_messages ticket_id w)) <> stdout w ->
  fst (get_zendesk_ticket_messages ticket_id w) = Returns PNone.
Proof.
  rewrite messages_run. cbv zeta.
  destruct (fetch_answer (comments_url ticket_id)) as [e|v].
  - destruct e; simpl; intros H; try reflexivity; now elim H.
  - simpl. intros H. now elim H.
Qed.

(** *** The credential header and the query *)

Lemma get_beyond (s : string) (k : nat) :
  (String.length s <= k)%nat -> String.get k s = None.
Proof.
  revert k. induction s as [|c s IH]; intros k Hk.
  - reflexivity.
  - destruct k as [|k]; simpl in *; [lia|]. apply IH. lia.
Qed.

Lemma digit_is_b64_char (n : N) : is_b64_char (digit n) = true.
Proof.
  destruct (N.ltb_spec n 64) as [Hlt|Hge].
  - unfold is_b64_char. rewrite (value_digit n Hlt). reflexivity.
  - unfold digit. rewrite get_beyond; [reflexivity|].
    change (String.length alphabet) with 64%nat. lia.
Qed.

Lemma b64encode_chars (bs : list byte) :
  forallb is_b64_char (b64encode bs) = true.
Proof.
  induction bs as [|a|a b|a b c rest IH] using list_ind3.
  - reflexivity.
  - cbn [b64encode].
    destruct (sextets (quantum a "000" "000")) as [[[s0 s1] s2] s3].
    cbn [forallb]. rewrite !digit_is_b64_char. reflexivity.
  - cbn [b64encode].
    destruct (sextets (quantum a b "000")) as [[[s0 s1] s2] s3].
    cbn [forallb]. rewrite !digit_is_b64_char. reflexivity.
  - cbn [b64encode].
    destruct (sextets (quantum a b c)) as [[[s0 s1] s2] s3].
    cbn [forallb]. rewrite !digit_is_b64_char, IH. reflexivity.
Qed.

Lemma str_app_inv_head (p a b : string) : p ++ a = p ++ b -> a = b.
Proof.
  induction p as [|c p IH]; simpl; intros H; [exact H|].
  injection H as H. exact (IH H).
Qed.

Lemma str_app_inv_last (a b : string) (c : ascii) :
  a ++ String c EmptyString = b ++ String c EmptyString -> a = b.
Proof.
  revert b. induction a as [|x a IH]; intros [|y b] H; simpl in H.
  - reflexivity.
  - injection H as _ H. destruct b; discriminate H.
  - injection H as _ H. destruct a; discriminate H.
  - injection H as -> H. f_equal. exact (IH b H).
Qed.

(** X13. Whatever the email and the token hold, the value of [auth()]
    is ["Basic "] followed by characters of the base64 alphabet and [=]
    only: no blank, line break or other character of the credentials
    reaches the header. *)
Theorem auth_header_is_plain_base64 :
  exists body : string,
    auth = "Basic " ++ body
    /\ forallb is_b64_char (encode_utf8 body) = true.
Proof.
  exists (decode_utf8
            (b64encode (encode_utf8 (ZENDESK_EMAIL ++ "/token:" ++ api_key)))).
  split; [reflexivity|].
  rewrite utf8_roundtrip. apply b64encode_chars.
Qed.

(** X14. The query of [search_tickets] determines the keyword: two
    keywords that give the same query string are equal. *)
Theorem closed_query_determines_keyword (k1 k2 : string) :
  closed_query k1 = closed_query k2 -> k1 = k2.
Proof.
  unfold closed_query. intros H.
  apply str_app_inv_head in H. apply str_app_inv_head in H.
  exact (str_app_inv_last k1 k2 _ H).
Qed.

(** *** The script *)

Lemma world_eta (w : world) : mkWorld (stdout w) (sent w) = w.
Proof. destruct w; reflexivity. Qed.

Lemma report_ticket_run (t ticket_id : pyval) (w : world) :
  subscript t "id" = inr ticket_id ->
  (forall e, fetch_answer (comments_url_of (py_str ticket_id)) = inl e ->
             is_request_exception e = true) ->
  report_ticket t w =
    (Returns tt,
     mkWorld (stdout w ++ ticket_lines ticket_id)
             (sent w ++ [comments_request_at (comments_url_of (py_str ticket_id))])).
Proof.
  intros Hid Hgood.
  unfold report_ticket, bind at 1. unfold lift. rewrite Hid.
  unfold ret at 1. unfold bind at 1.
  unfold get_zendesk_ticket_messages_of. rewrite fetch_comments_run.
  unfold ticket_lines. cbv zeta.
  destruct (fetch_answer (comments_url_of (py_str ticket_id))) as [e|v].
  - specialize (Hgood e eq_refl).
    destruct e; try discriminate Hgood.
    unfold bind, print. cbn [stdout sent].
    rewrite !str_app_assoc. reflexivity.
  - unfold bind, print. cbn [stdout sent].
    rewrite !str_app_assoc. reflexivity.
Qed.

Lemma report_ticket_no_id (t : pyval) (e : exn) (w : world) :
  subscript t "id" = inl e -> report_ticket t w = (Raises e, w).
Proof.
  intros Hid. unfold report_ticket, bind, lift. rewrite Hid. reflexivity.
Qed.

Lemma loop_run (l ids rest : list pyval) (w : world) :
  Forall2 (fun t ticket_id => subscript t "id" = inr ticket_id) l ids ->
  (forall ticket_id e,
      In ticket_id ids ->
      fetch_answer (comments_url_of (py_str ticket_id)) = inl e ->
      is_request_exception e = true) ->
  for_each (l ++ rest) report_ticket w =
    for_each rest report_ticket
      (mkWorld
         (stdout w ++ String.concat EmptyString (map ticket_lines ids))
         (sent w ++ map (fun ticket_id =>
                           comments_request_at (comments_url_of (py_str ticket_id)))
                        ids)).
Proof.
  intros Hids. revert w.
  induction Hids as [|t ticket_id l ids Hid Hrest IH]; intros w Hgood.
  - cbn [map String.concat app]. rewrite str_app_nil_r, app_nil_r, world_eta.
    reflexivity.
  - cbn [app for_each]. unfold bind at 1.
    rewrite (report_ticket_run t ticket_id w Hid)
      by (intros e; apply Hgood; left; reflexivity).
    rewrite IH by (intros i e Hi; apply Hgood; right; exact Hi).
    cbn [stdout sent map]. f_equal. f_equal.
    + rewrite str_app_assoc. f_equal.
      destruct ids; [cbn; now rewrite str_app_nil_r | reflexivity].
    + rewrite <- app_assoc. reflexivity.
Qed.

Lemma main_run_list (r : response) (d : list (string * pyval))
      (l : list pyval) (w : world) :
  net (closed_tickets_request "password") = inr r ->
  status_code r = 200 ->
  json r = inr (PDict d) ->
  dict_lookup "results" d = Some (PList l) ->
  main w =
    for_each l report_ticket
      (mkWorld (stdout w) (sent w ++ [closed_tickets_request "password"])).
Proof.
  intros Hnet Hcode Hjson Hres.
  unfold main, bind at 1.
  rewrite (search_ok "password" r d (PList l) w Hnet Hcode Hjson Hres).
  reflexivity.
Qed.

(** X15. Run as a script when the search answers with a status other
    than 200, the module ends in [TypeError]: the loop runs through the
    characters of the error string and takes ['id'] of the first. Only the
    search request has been sent and nothing has been printed; the error
    message itself is never shown. *)
Theorem main_fails_on_search_error (r : response) (w : world) :
  net (closed_tickets_request "password") = inr r ->
  status_code r <> 200 ->
  main w =
    (Raises TypeError,
     mkWorld (stdout w) (sent w ++ [closed_tickets_request "password"])).
Proof.
  intros Hnet Hcode.
  unfold main, bind at 1.
  rewrite (search_error "password" r w Hnet Hcode).
  reflexivity.
Qed.

(** X16. Run as a script on a 200 answer whose results are tickets with
    an ['id'] each, where no comment fetch ends in an exception of another
    class than [RequestException], the module ends normally. It has sent
    the search request and then one comment request per ticket, in the
    order of the results, and has printed for each ticket, in that order,
    the error line of a fetch that gave up, the id, and the comments or
    [None]: a failed fetch does not stop the loop. *)
Theorem main_reports_each_ticket
    (r : response) (d : list (string * pyval)) (l ids : list pyval)
    (w : world) :
  net (closed_tickets_request "password") = inr r ->
  status_code r = 200 ->
  json r = inr (PDict d) ->
  dict_lookup "results" d = Some (PList l) ->
  Forall2 (fun t ticket_id => subscript t "id" = inr ticket_id) l ids ->
  (forall ticket_id e,
      In ticket_id ids ->
      fetch_answer (comments_url_of (py_str ticket_id)) = inl e ->
      is_request_exception e = true) ->
  main w =
    (Returns tt,
     mkWorld
       (stdout w ++ String.concat EmptyString (map ticket_lines ids))
       (sent w
          ++ closed_tickets_request "password"
          :: map (fun ticket_id =>
                    comments_request_at (comments_url_of (py_str ticket_id)))
                 ids)).
Proof.
  intros Hnet Hcode Hjson Hres Hids Hgood.
  rewrite (main_run_list r d l w Hnet Hcode Hjson Hres).
  rewrite <- (app_nil_r l).
  rewrite (loop_run l ids [] _ Hids Hgood).
  cbn [for_each stdout sent]. unfold ret. rewrite <- app_assoc. reflexivity.
Qed.

(** X17. The script stops at the first ticket without an ['id']: it ends
    in the exception of the subscript ([KeyError] for a record without the
    key), after the comment requests of the tickets before it. No request
    is sent for that ticket or for any ticket after it. *)
Theorem main_stops_at_ticket_without_id
    (r : response) (d : list (string * pyval))
    (good ids : list pyval) (t : pyval) (rest : list pyval)
    (e : exn) (w : world) :
  net (closed_tickets_request "password") = inr r ->
  status_code r = 200 ->
  json r = inr (PDict d) ->
  dict_lookup "results" d = Some (PList (good ++ t :: rest)) ->
  Forall2 (fun t ticket_id => subscript t "id" = inr ticket_id) good ids ->
  (forall ticket_id e,
      In ticket_id ids ->
      fetch_answer (comments_url_of (py_str ticket_id)) = inl e ->
      is_request_exception e = true) ->
  subscript t "id" = inl e ->
  fst (main w) = Raises e
  /\ sent (snd (main w)) =
       (sent w
          ++ closed_tickets_request "password"
          :: map (fun ticket_id =>
                    comments_request_at (comments_url_of (py_str ticket_id)))
                 ids)%list.
Proof.
  intros Hnet Hcode Hjson Hres Hids Hgood Hbad.
  rewrite (main_run_list r d _ w Hnet Hcode Hjson Hres).
  rewrite (loop_run good ids (t :: rest) _ Hids Hgood).
  cbn [for_each]. unfold bind.
  rewrite (report_ticket_no_id t e _ Hbad).
  cbn [fst snd sent]. split; [reflexivity|].
  rewrite <- app_assoc. reflexivity.
Qed.

(** X18. A comment fetch that ends in an exception of another class than
    [RequestException] ends the script with that exception, before the
    ticket's id is printed: the tickets after it are not fetched. *)
Theorem main_stops_at_uncaught_fetch_error
    (r : response) (d : list (string * pyval))
    (good ids : list pyval) (t ticket_id : pyval) (rest : list pyval)
    (e : exn) (w : world) :
  net (closed_tickets_request "password") = inr r ->
  status_code r = 200 ->
  json r = inr (PDict d) ->
  dict_lookup "results" d = Some (PList (good ++ t :: rest)) ->
  Forall2 (fun t ticket_id => subscript t "id" = inr ticket_id) good ids ->
  (forall ticket_id e,
      In ticket_id ids ->
      fetch_answer (comments_url_of (py_str ticket_id)) = inl e ->
      is_request_exception e = true) ->
  subscript t "id" = inr ticket_id ->
  fetch_answer (comments_url_of (py_str ticket_id)) = inl e ->
  is_request_exception e = false ->
  main w =
    (Raises e,
     mkWorld
       (stdout w ++ String.concat EmptyString (map ticket_lines ids))
       (sent w
          ++ closed_tickets_request "password"
          :: map (fun ticket_id =>
                    comments_request_at (comments_url_of (py_str ticket_id)))
                 (ids ++ [ticket_id]))).
Proof.
  intros Hnet Hcode Hjson Hres Hids Hgood Hid Hans Hcls.
  rewrite (main_run_list r d _ w Hnet Hcode Hjson Hres).
  rewrite (loop_run good ids (t :: rest) _ Hids Hgood).
  cbn [for_each]. unfold bind at 1.
  unfold report_ticket, bind at 1. unfold lift. rewrite Hid.
  unfold ret at 1. unfold bind at 1.
  unfold get_zendesk_ticket_messages_of. rewrite fetch_comments_run, Hans.
  cbv zeta. cbn [stdout sent].
  rewrite map_app. cbn [map].
  destruct e; try discriminate Hcls;
    (f_equal; f_equal; rewrite <- !app_assoc; reflexivity).
Qed.

(** On an [int] id, where [str] gives the decimal digits, the script's
    call is [get_zendesk_ticket_messages] as modelled above. *)
Lemma messages_of_int (n : Z) :
  py_str (PInt n) = str_int n ->
  get_zendesk_ticket_messages_of (PInt n) = get_zendesk_ticket_messages n.
Proof.
  intros Hstr. unfold get_zendesk_ticket_messages_of. rewrite Hstr.
  reflexivity.
Qed.

(** X20. On the same 200 answer, [read_open_zendesk_tickets] gives the
    slice [[:1]] of what [search_tickets] gives: the same exception where
    the search raises, and otherwise the first-item slice of the value
    the search returns, or the exception that slicing it raises. *)
Theorem read_open_is_first_slice_of_search
    (keywords : string) (r : response) (w : world) :
  net open_tickets_request = inr r ->
  net (closed_tickets_request keywords) = inr r ->
  status_code r = 200 ->
  fst (read_open_zendesk_tickets w) =
    match fst (search_tickets keywords w) with
    | Returns v =>
        match slice_to_1 v with
        | inr first => Returns first
        | inl e => Raises e
        end
    | Raises e => Raises e
    end.
Proof.
  intros Hopen Hclosed Hcode.
  rewrite read_open_run, search_run, Hopen, Hclosed, Hcode. cbv zeta.
  change (200 =? 200) with true. cbv iota.
  destruct (json r) as [e|body]; [reflexivity|].
  destruct (subscript body "results") as [e|res]; [reflexivity|].
  cbn [fst]. destruct (slice_to_1 res); reflexivity.
Qed.

End Zendesk.

(** X19. Two settings give the same [Authorization] value exactly when
    their credential strings ["{email}/token:{token}"] are equal: distinct
    credential strings never share a header, and the header tells apart
    no more than that string. *)
Theorem auth_determined_by_credential (token email token' email' : string) :
  auth token email = auth token' email'
  <-> email ++ "/token:" ++ token = email' ++ "/token:" ++ token'.
Proof.
  split.
  - unfold auth. intros H.
    apply (str_app_inv_head "Basic ") in H.
    apply (f_equal encode_utf8) in H. rewrite !utf8_roundtrip in H.
    apply (f_equal Base64.b64decode) in H.
    rewrite !b64decode_b64encode in H. injection H as H.
    apply (f_equal decode_utf8) in H.
    unfold decode_utf8, encode_utf8 in H.
    rewrite !string_of_list_byte_of_string in H. exact H.
  - unfold auth. intros ->. reflexivity.
Qed.

(* ===================================================================== *)
(** ** The claims at sample answers of the network *)
(* ===================================================================== *)

Import Samples.

Example auth_sample :
  auth "tok" "agent@acme.test" = "Basic YWdlbnRAYWNtZS50ZXN0L3Rva2VuOnRvaw==".
Proof. reflexivity. Qed.

(** Outside the cases the claims cover, exceptions leave the helpers: a
    network error in a search, a body without ['results'], and, in the
    comment fetch, any exception that is not a [RequestException]. *)
Example read_open_network_error :
  fst (read_open_zendesk_tickets "tok" "agent@acme.test" "acme" unreachable w0) =
    Raises (RequestException "ConnectionError" "Max retries exceeded").
Proof. reflexivity. Qed.

Example search_missing_results :
  fst (search_tickets "tok" "agent@acme.test" "acme"
         (answers (ok no_thread)) "password" w0) =
    Raises (KeyError "results").
Proof. reflexivity. Qed.

Example comments_body_not_an_object :
  fst (get_zendesk_ticket_messages "tok" "agent@acme.test" "acme"
         (answers (ok (PList []))) 7 w0) =
    Raises AttributeError.
Proof. reflexivity. Qed.

Example comments_not_found_log :
  snd (get_zendesk_ticket_messages "tok" "agent@acme.test" "acme"
         (answers not_found) 7 w0) =
    mkWorld
      ("Error fetching ticket messages: 404 Client Error: Not Found for url: "
         ++ "https://acme.zendesk.com/api/v2/x" ++ newline)
      [comments_request "tok" "agent@acme.test" "acme" 7].
Proof. reflexivity. Qed.

Lemma error_status_is_reported_witness :
  fst (read_open_zendesk_tickets "tok" "agent@acme.test" "acme"
         (answers not_found) w0) =
    Returns (PStr "Error fetching tickets: 404")
  /\ fst (search_tickets "tok" "agent@acme.test" "acme"
            (answers not_found) "password" w0) =
       Returns (PStr "Error searching tickets: 404").
Proof.
  split.
  - refine (proj1 (proj1 (error_status_is_reported "tok" "agent@acme.test"
                            "acme" (answers not_found)) not_found w0 _ _)).
    + reflexivity.
    + simpl. lia.
  - refine (proj1 (proj2 (error_status_is_reported "tok" "agent@acme.test"
                            "acme" (answers not_found))
                     "password" not_found w0 _ _)).
    + reflexivity.
    + simpl. lia.
Defined.

Lemma open_tickets_at_most_one_witness :
  fst (read_open_zendesk_tickets "tok" "agent@acme.test" "acme"
         (answers (ok open_results)) w0) =
    Returns (PList [ticket 1]).
Proof.
  refine (proj1 (open_tickets_at_most_one "tok" "agent@acme.test" "acme"
                   (answers (ok open_results)) (ok open_results)
                   [("results", PList [ticket 1; ticket 2; ticket 3]);
                    ("count", PInt 3)]
                   [ticket 1; ticket 2; ticket 3] w0 _ _ _ _));
    reflexivity.
Defined.

Lemma comment_fetch_failure_is_caught_witness :
  get_zendesk_ticket_messages "tok" "agent@acme.test" "acme" unreachable 7 w0 =
    (Returns PNone,
     mkWorld ("Error fetching ticket messages: Max retries exceeded" ++ newline)
       [comments_request "tok" "agent@acme.test" "acme" 7])
  /\ get_zendesk_ticket_messages "tok" "agent@acme.test" "acme"
       (answers not_found) 7 w0 =
       (Returns PNone,
        mkWorld
          ("Error fetching ticket messages: "
             ++ "404 Client Error: Not Found for url: "
             ++ "https://acme.zendesk.com/api/v2/x" ++ newline)
          [comments_request "tok" "agent@acme.test" "acme" 7]).
Proof.
  split.
  - apply (proj1 (comment_fetch_failure_is_caught "tok" "agent@acme.test"
                    "acme" unreachable 7 w0)
             "ConnectionError" "Max retries exceeded").
    reflexivity.
  - destruct (proj2 (comment_fetch_failure_is_caught "tok" "agent@acme.test"
                       "acme" (answers not_found) 7 w0)
                not_found
                (RequestException "HTTPError"
                   ("404 Client Error: Not Found for url: "
                      ++ "https://acme.zendesk.com/api/v2/x"))
                eq_refl eq_refl) as (msg & He & _ & Hrun).
    injection He as <-. exact Hrun.
Defined.

Lemma comments_default_and_order_witness :
  fst (get_zendesk_ticket_messages "tok" "agent@acme.test" "acme"
         (answers (ok thread)) 7 w0) =
    Returns (PList [comment "first"; comment "second"])
  /\ fst (get_zendesk_ticket_messages "tok" "agent@acme.test" "acme"
            (answers (ok no_thread)) 7 w0) =
       Returns (PList []).
Proof.
  split.
  - refine (proj2 (comments_default_and_order "tok" "agent@acme.test" "acme"
                     (answers (ok thread)) 7 (ok thread)
                     [("comments", PList [comment "first"; comment "second"])]
                     w0 _ _ _)
              [comment "first"; comment "second"] _);
      reflexivity.
  - refine (proj1 (comments_default_and_order "tok" "agent@acme.test" "acme"
                     (answers (ok no_thread)) 7 (ok no_thread)
                     [("count", PInt 0)] w0 _ _ _) _);
      reflexivity.
Defined.

Lemma search_returns_full_results_witness :
  fst (search_tickets "tok" "agent@acme.test" "acme"
         (answers (ok open_results)) "password" w0) =
    Returns (PList [ticket 1; ticket 2; ticket 3]).
Proof.
  apply (search_returns_full_results "tok" "agent@acme.test" "acme"
           (answers (ok open_results)) "password" (ok open_results)
           [("results", PList [ticket 1; ticket 2; ticket 3]);
            ("count", PInt 3)]);
    reflexivity.
Defined.

Lemma open_tickets_empty_results_witness :
  fst (read_open_zendesk_tickets "tok" "agent@acme.test" "acme"
         (answers (ok no_results)) w0) =
    Returns (PList []).
Proof.
  apply (open_tickets_empty_results "tok" "agent@acme.test" "acme"
           (answers (ok no_results)) (ok no_results)
           [("results", PList []); ("count", PInt 0)]);
    reflexivity.
Defined.

(* ===================================================================== *)
(** ** The further properties at sample answers of the network *)
(* ===================================================================== *)

Example str_chars_ascii : str_chars "Err" = ["E"; "r"; "r"].
Proof. reflexivity. Qed.

Lemma search_helpers_propagate_network_errors_witness :
  fst (read_open_zendesk_tickets "tok" "agent@acme.test" "acme" unreachable w0) =
    Raises (RequestException "ConnectionError" "Max retries exceeded")
  /\ fst (search_tickets "tok" "agent@acme.test" "acme" unreachable
            "password" w0) =
       Raises (RequestException "ConnectionError" "Max retries exceeded").
Proof.
  split.
  - rewrite (proj1 (search_helpers_propagate_network_errors
                      "tok" "agent@acme.test" "acme" unreachable
                      (RequestException "ConnectionError" "Max retries exceeded"))
               w0 eq_refl).
    reflexivity.
  - rewrite (proj2 (search_helpers_propagate_network_errors
                      "tok" "agent@acme.test" "acme" unreachable
                      (RequestException "ConnectionError" "Max retries exceeded"))
               "password" w0 eq_refl).
    reflexivity.
Defined.

Lemma search_helpers_need_results_key_witness :
  fst (read_open_zendesk_tickets "tok" "agent@acme.test" "acme"
         (answers (ok no_thread)) w0) = Raises (KeyError "results")
  /\ fst (search_tickets "tok" "agent@acme.test" "acme"
            (answers (ok no_thread)) "password" w0) =
       Raises (KeyError "results").
Proof.
  destruct (search_helpers_need_results_key "tok" "agent@acme.test" "acme"
              (answers (ok no_thread)) (ok no_thread) [("count", PInt 0)]
              eq_refl eq_refl eq_refl) as [Hopen Hsearch].
  split.
  - apply Hopen. reflexivity.
  - apply Hsearch. reflexivity.
Defined.

Lemma search_helpers_propagate_json_errors_witness :
  fst (read_open_zendesk_tickets "tok" "agent@acme.test" "acme"
         (answers garbled_old) w0) =
    Raises (OtherError "ValueError" "Expecting value")
  /\ fst (search_tickets "tok" "agent@acme.test" "acme"
            (answers garbled_old) "password" w0) =
       Raises (OtherError "ValueError" "Expecting value").
Proof.
  destruct (search_helpers_propagate_json_errors "tok" "agent@acme.test" "acme"
              (answers garbled_old) garbled_old
              (OtherError "ValueError" "Expecting value")
              eq_refl eq_refl) as [Hopen Hsearch].
  split.
  - apply Hopen. reflexivity.
  - apply Hsearch. reflexivity.
Defined.

Lemma messages_never_raise_request_exception_witness :
  is_request_exception AttributeError = false.
Proof.
  apply (messages_never_raise_request_exception "tok" "agent@acme.test" "acme"
           (answers (ok (PList []))) 7 w0 AttributeError).
  reflexivity.
Defined.

Lemma messages_propagate_other_exceptions_witness :
  fst (get_zendesk_ticket_messages "tok" "agent@acme.test" "acme"
         broken 7 w0) =
    Raises (OtherError "KeyboardInterrupt" EmptyString)
  /\ fst (get_zendesk_ticket_messages "tok" "agent@acme.test" "acme"
            (answers garbled_old) 7 w0) =
       Raises (OtherError "ValueError" "Expecting value").
Proof.
  split.
  - rewrite (messages_propagate_other_exceptions "tok" "agent@acme.test" "acme"
               broken 7 (OtherError "KeyboardInterrupt" EmptyString) w0).
    + reflexivity.
    + reflexivity.
    + left. reflexivity.
  - rewrite (messages_propagate_other_exceptions "tok" "agent@acme.test" "acme"
               (answers garbled_old) 7
               (OtherError "ValueError" "Expecting value") w0).
    + reflexivity.
    + reflexivity.
    + right. exists garbled_old. repeat split.
Defined.

Lemma messages_swallow_json_request_exception_witness :
  get_zendesk_ticket_messages "tok" "agent@acme.test" "acme"
    (answers garbled_new) 7 w0 =
    (Returns PNone,
     mkWorld ("Error fetching ticket messages: Expecting value" ++ newline)
       [comments_request "tok" "agent@acme.test" "acme" 7]).
Proof.
  apply (messages_swallow_json_request_exception "tok" "agent@acme.test" "acme"
           (answers garbled_new) 7 garbled_new "JSONDecodeError"
           "Expecting value" w0);
    reflexivity.
Defined.

Lemma messages_need_object_body_witness :
  get_zendesk_ticket_messages "tok" "agent@acme.test" "acme"
    (answers (ok (PList [comment "first"]))) 7 w0 =
    (Raises AttributeError,
     mkWorld EmptyString [comments_request "tok" "agent@acme.test" "acme" 7]).
Proof.
  apply (messages_need_object_body "tok" "agent@acme.test" "acme"
           (answers (ok (PList [comment "first"]))) 7
           (ok (PList [comment "first"])) (PList [comment "first"]) w0).
  - reflexivity.
  - reflexivity.
  - reflexivity.
  - intros d H. discriminate H.
Defined.

Lemma messages_accept_any_status_below_400_witness :
  get_zendesk_ticket_messages "tok" "agent@acme.test" "acme"
    (answers (created thread)) 7 w0 =
    (Returns (PList [comment "first"; comment "second"]),
     mkWorld EmptyString [comments_request "tok" "agent@acme.test" "acme" 7]).
Proof.
  apply (messages_accept_any_status_below_400 "tok" "agent@acme.test" "acme"
           (answers (created thread)) 7 (created thread)
           [("comments", PList [comment "first"; comment "second"])] w0).
  - reflexivity.
  - simpl. lia.
  - reflexivity.
Defined.

Lemma messages_print_only_with_none_witness :
  fst (get_zendesk_ticket_messages "tok" "agent@acme.test" "acme"
         (answers not_found) 7 w0) = Returns PNone.
Proof.
  apply (messages_print_only_with_none "tok" "agent@acme.test" "acme"
           (answers not_found) 7 w0).
  vm_compute. intros H. discriminate H.
Defined.

Lemma closed_query_determines_keyword_witness :
  "password" = "password".
Proof.
  apply (closed_query_determines_keyword "password" "password").
  reflexivity.
Defined.

Lemma main_fails_on_search_error_witness :
  main "tok" "agent@acme.test" "acme" (answers not_found) show w0 =
    (Raises TypeError,
     mkWorld EmptyString
       [closed_tickets_request "tok" "agent@acme.test" "acme" "password"]).
Proof.
  apply (main_fails_on_search_error "tok" "agent@acme.test" "acme"
           (answers not_found) show not_found w0).
  - reflexivity.
  - simpl. lia.
Defined.

Lemma main_reports_each_ticket_witness :
  main "tok" "agent@acme.test" "acme"
    (desk (PList [ticket 1; ticket 2; ticket 3]) threads) show w0 =
    (Returns tt,
     mkWorld
       ("1" ++ newline ++ "[...]" ++ newline
          ++ "Error fetching ticket messages: "
          ++ "404 Client Error: Not Found for url: "
          ++ "https://acme.zendesk.com/api/v2/x" ++ newline
          ++ "2" ++ newline ++ "None" ++ newline
          ++ "3" ++ newline ++ "[...]" ++ newline)
       [closed_tickets_request "tok" "agent@acme.test" "acme" "password";
        comments_request "tok" "agent@acme.test" "acme" 1;
        comments_request "tok" "agent@acme.test" "acme" 2;
        comments_request "tok" "agent@acme.test" "acme" 3]).
Proof.
  apply (main_reports_each_ticket "tok" "agent@acme.test" "acme"
           (desk (PList [ticket 1; ticket 2; ticket 3]) threads) show
           (ok (PDict [("results", PList [ticket 1; ticket 2; ticket 3])]))
           [("results", PList [ticket 1; ticket 2; ticket 3])]
           [ticket 1; ticket 2; ticket 3] [PInt 1; PInt 2; PInt 3] w0).
  - reflexivity.
  - reflexivity.
  - reflexivity.
  - reflexivity.
  - repeat constructor.
  - intros ticket_id e [<-|[<-|[<-|[]]]] H; vm_compute in H;
      try discriminate H.
    injection H as <-. reflexivity.
Defined.

Lemma main_stops_at_ticket_without_id_witness :
  fst (main "tok" "agent@acme.test" "acme"
         (desk (PList [ticket 1; unnumbered; ticket 3]) threads) show w0) =
    Raises (KeyError "id")
  /\ sent (snd (main "tok" "agent@acme.test" "acme"
                  (desk (PList [ticket 1; unnumbered; ticket 3]) threads)
                  show w0)) =
       [closed_tickets_request "tok" "agent@acme.test" "acme" "password";
        comments_request "tok" "agent@acme.test" "acme" 1].
Proof.
  apply (main_stops_at_ticket_without_id "tok" "agent@acme.test" "acme"
           (desk (PList [ticket 1; unnumbered; ticket 3]) threads) show
           (ok (PDict [("results", PList [ticket 1; unnumbered; ticket 3])]))
           [("results", PList [ticket 1; unnumbered; ticket 3])]
           [ticket 1] [PInt 1] unnumbered [ticket 3] (KeyError "id") w0).
  - reflexivity.
  - reflexivity.
  - reflexivity.
  - reflexivity.
  - repeat constructor.
  - intros ticket_id e [<-|[]] H; vm_compute in H; discriminate H.
  - reflexivity.
Defined.

Lemma main_stops_at_uncaught_fetch_error_witness :
  main "tok" "agent@acme.test" "acme"
    (desk (PList [ticket 1; ticket 2; ticket 3]) bare_threads) show w0 =
    (Raises AttributeError,
     mkWorld
       ("1" ++ newline ++ "[...]" ++ newline)
       [closed_tickets_request "tok" "agent@acme.test" "acme" "password";
        comments_request "tok" "agent@acme.test" "acme" 1;
        comments_request "tok" "agent@acme.test" "acme" 2]).
Proof.
  apply (main_stops_at_uncaught_fetch_error "tok" "agent@acme.test" "acme"
           (desk (PList [ticket 1; ticket 2; ticket 3]) bare_threads) show
           (ok (PDict [("results", PList [ticket 1; ticket 2; ticket 3])]))
           [("results", PList [ticket 1; ticket 2; ticket 3])]
           [ticket 1] [PInt 1] (ticket 2) (PInt 2) [ticket 3]
           AttributeError w0).
  - reflexivity.
  - reflexivity.
  - reflexivity.
  - reflexivity.
  - repeat constructor.
  - intros ticket_id e [<-|[]] H; vm_compute in H; discriminate H.
  - reflexivity.
  - reflexivity.
  - reflexivity.
Defined.

Lemma read_open_is_first_slice_of_search_witness :
  fst (read_open_zendesk_tickets "tok" "agent@acme.test" "acme"
         (answers (ok open_results)) w0) =
    Returns (PList [ticket 1]).
Proof.
  rewrite (read_open_is_first_slice_of_search "tok" "agent@acme.test" "acme"
             (answers (ok open_results)) "password" (ok open_results) w0);
    reflexivity.
Defined.
